(** * The profiler agent's bootstrap: [common_functions.c]

    A shallow embedding of [initializeJVMTI], [JNI_OnLoad], [Agent_OnLoad]
    and [report_usage], and the properties of the capability negotiation,
    the callback table and the start-up handshake.

    The agent talks to a host virtual machine through the JVMTI function
    table.  The host is opaque: here it is any function from the interaction
    so far (the log of calls, answers and printed lines) and the current
    request to an answer.  Every theorem below is quantified over all such
    hosts. *)

From Stdlib Require Import ZArith List String Ascii Bool Lia DecimalString.
Import ListNotations.

Local Open Scope string_scope.
Local Open Scope list_scope.
Local Open Scope Z_scope.

(** ** Constants and types of [jni.h] and [jvmti.h]

    The values are those of the JDK's headers. *)

Definition jint := Z.
Definition jvmtiError := Z.

Definition JVMTI_ERROR_NONE : jvmtiError := 0.
Definition JNI_VERSION_1_2 : jint := 0x00010002.
Definition JVMTI_VERSION_1_0 : jint := 0x30010000.
Definition JVMTI_VERSION_1_1 : jint := 0x30010100.

(** A [jvmtiEnv *]: [None] is the null pointer. *)
Definition jvmtiEnv := N.

Inductive jvmtiEventMode := JVMTI_ENABLE | JVMTI_DISABLE.

(** The event kinds of [jvmti.h] that have a slot in the callback table
    below. *)
Inductive jvmtiEvent :=
| JVMTI_EVENT_VM_INIT
| JVMTI_EVENT_CLASS_FILE_LOAD_HOOK
| JVMTI_EVENT_NATIVE_METHOD_BIND
| JVMTI_EVENT_MONITOR_CONTENDED_ENTER
| JVMTI_EVENT_MONITOR_CONTENDED_ENTERED
| JVMTI_EVENT_VM_OBJECT_ALLOC.

(** The handlers declared in [common_functions.h]; their bodies live in
    other files.  A function pointer is the name of its function. *)
Inductive hook :=
| class_file_load_hook
| native_method_bind_hook
| monitor_contended_enter_hook
| monitor_contended_entered_hook
| vm_object_alloc
| vm_init_hook.

(** [jvmtiEventCallbacks]: the slots this file ever writes.  [None] is a
    null function pointer.  The other slots of the C struct are zeroed by
    the [memset] and never written. *)
Record jvmtiEventCallbacks := mkCallbacks {
  VMInit : option hook;
  ClassFileLoadHook : option hook;
  NativeMethodBind : option hook;
  MonitorContendedEnter : option hook;
  MonitorContendedEntered : option hook;
  VMObjectAlloc : option hook
}.

(** [jvmtiCapabilities]: the eight bit-fields this file sets, and the
    remaining bit-fields of the struct as one mask. *)
Record jvmtiCapabilities := mkCapabilities {
  can_redefine_classes : bool;
  can_retransform_classes : bool;
  can_generate_garbage_collection_events : bool;
  can_generate_native_method_bind_events : bool;
  can_generate_monitor_events : bool;
  can_get_current_thread_cpu_time : bool;
  can_generate_vm_object_alloc_events : bool;
  can_get_monitor_info : bool;
  other_capabilities : N
}.

(** ** What the outside world sees *)

Inductive FILE := stdout | stderr.

Inductive event :=
| Printed (stream : FILE) (text : string)
| Called_GetEnv (version : jint) (penv : option jvmtiEnv)
| Called_GetCapabilities (err : jvmtiError) (capas : jvmtiCapabilities)
| Called_AddCapabilities (capas : jvmtiCapabilities) (err : jvmtiError)
| Called_SetEventCallbacks (callbacks : jvmtiEventCallbacks) (err : jvmtiError)
| Called_SetEventNotificationMode
    (mode : jvmtiEventMode) (ev : jvmtiEvent) (err : jvmtiError)
| Called_parse_options_and_extract_params (options : string).

(** The host: each entry of the function table answers from the log so far
    and its arguments.  [GetEnv] answers with the pointer it stores through
    its out-parameter (its return code is dropped by the caller);
    [GetCapabilities] with its return code and the struct it fills in. *)
Record JavaVM := mkJavaVM {
  GetEnv : list event -> jint -> option jvmtiEnv;
  GetCapabilities : list event -> jvmtiError * jvmtiCapabilities;
  AddCapabilities : list event -> jvmtiCapabilities -> jvmtiError;
  SetEventCallbacks : list event -> jvmtiEventCallbacks -> jvmtiError;
  SetEventNotificationMode :
    list event -> jvmtiEventMode -> jvmtiEvent -> jvmtiError
}.

(** ** The agent's memory *)

(** The value of the pointer [_jvmti_callbacks]: null, or the address of
    [_jvmti_callbacks_static], the only object it is ever pointed at. *)
Inductive callbacks_ptr := NULL_callbacks | addr_jvmti_callbacks_static.

Record globals := mkGlobals {
  _jvmti : option jvmtiEnv;
  _jvmti_callbacks : callbacks_ptr;
  _jvmti_callbacks_static : jvmtiEventCallbacks
}.

Record world := mkWorld {
  mem : globals;
  log : list event
}.

(** Static storage is zero-initialised. *)
Definition zeroed_callbacks : jvmtiEventCallbacks :=
  mkCallbacks None None None None None None.

Definition globals_at_load : globals :=
  mkGlobals None NULL_callbacks zeroed_callbacks.

Definition world_at_load : world := mkWorld globals_at_load [].

(** ** Runs

    A run returns, or stops at a failed [assert] (which calls [abort]), or
    calls through a null pointer.  The world reached is kept in each case. *)
Inductive outcome (A : Type) :=
| Returned (a : A) (w : world)
| AssertionFailed (w : world)
| NullDereference (w : world).

Arguments Returned {A} a w.
Arguments AssertionFailed {A} w.
Arguments NullDereference {A} w.

Definition final {A} (o : outcome A) : world :=
  match o with
  | Returned _ w | AssertionFailed w | NullDereference w => w
  end.

Definition has_returned {A} (o : outcome A) : bool :=
  match o with Returned _ _ => true | _ => false end.

Definition run (A : Type) := world -> outcome A.

Definition ret {A} (a : A) : run A := fun w => Returned a w.

Definition bind {A B} (m : run A) (k : A -> run B) : run B :=
  fun w =>
    match m w with
    | Returned a w' => k a w'
    | AssertionFailed w' => AssertionFailed w'
    | NullDereference w' => NullDereference w'
    end.

Declare Scope run_scope.
Delimit Scope run_scope with run.
Notation "x <- m ;; k" := (bind m (fun x => k))
  (at level 61, m at next level, right associativity) : run_scope.
Notation "m ;; k" := (bind m (fun _ => k))
  (at level 61, right associativity) : run_scope.
Local Open Scope run_scope.

Definition emit (e : event) : run unit :=
  fun w => Returned tt (mkWorld (mem w) (log w ++ [e])).

Definition read_globals : run globals := fun w => Returned (mem w) w.

Definition write_globals (g : globals) : run unit :=
  fun w => Returned tt (mkWorld g (log w)).

(** ** [stdio.h] and [string.h] *)

Definition LF : string := String (ascii_of_nat 10) EmptyString.

Definition fprintf (stream : FILE) (text : string) : run unit :=
  emit (Printed stream text).

(** The conversion [%d]. *)
Definition percent_d (n : Z) : string := NilZero.string_of_int (Z.to_int n).

Definition is_NUL (c : ascii) : bool := Ascii.eqb c zero.

(** The characters of a C string: those before the first NUL.  This is what
    the conversion [%s] prints. *)
Fixpoint percent_s (s : string) : string :=
  match s with
  | EmptyString => EmptyString
  | String c s' => if is_NUL c then EmptyString else String c (percent_s s')
  end.

Fixpoint strlen (s : string) : nat :=
  match s with
  | EmptyString => 0%nat
  | String c s' => if is_NUL c then 0%nat else S (strlen s')
  end.

(** Whether [c] is one of the characters of the C string [accept]. *)
Fixpoint accepts (accept : string) (c : ascii) : bool :=
  match accept with
  | EmptyString => false
  | String d rest =>
      if is_NUL d then false else if Ascii.eqb d c then true else accepts rest c
  end.

(** [strpbrk s accept]: the tail of [s] from its first character that is in
    [accept]; [None] is the null pointer. *)
Fixpoint strpbrk (s accept : string) : option string :=
  match s with
  | EmptyString => None
  | String c s' =>
      if is_NUL c then None
      else if accepts accept c then Some s
      else strpbrk s' accept
  end.

(** ** Field updates *)

Definition set_jvmti (p : option jvmtiEnv) (g : globals) : globals :=
  mkGlobals p (_jvmti_callbacks g) (_jvmti_callbacks_static g).

Definition set_jvmti_callbacks (p : callbacks_ptr) (g : globals) : globals :=
  mkGlobals (_jvmti g) p (_jvmti_callbacks_static g).

Definition set_jvmti_callbacks_static
    (t : jvmtiEventCallbacks) (g : globals) : globals :=
  mkGlobals (_jvmti g) (_jvmti_callbacks g) t.

Definition set_VMInit h t :=
  mkCallbacks h (ClassFileLoadHook t) (NativeMethodBind t)
    (MonitorContendedEnter t) (MonitorContendedEntered t) (VMObjectAlloc t).
Definition set_ClassFileLoadHook h t :=
  mkCallbacks (VMInit t) h (NativeMethodBind t)
    (MonitorContendedEnter t) (MonitorContendedEntered t) (VMObjectAlloc t).
Definition set_NativeMethodBind h t :=
  mkCallbacks (VMInit t) (ClassFileLoadHook t) h
    (MonitorContendedEnter t) (MonitorContendedEntered t) (VMObjectAlloc t).
Definition set_MonitorContendedEnter h t :=
  mkCallbacks (VMInit t) (ClassFileLoadHook t) (NativeMethodBind t)
    h (MonitorContendedEntered t) (VMObjectAlloc t).
Definition set_MonitorContendedEntered h t :=
  mkCallbacks (VMInit t) (ClassFileLoadHook t) (NativeMethodBind t)
    (MonitorContendedEnter t) h (VMObjectAlloc t).
Definition set_VMObjectAlloc h t :=
  mkCallbacks (VMInit t) (ClassFileLoadHook t) (NativeMethodBind t)
    (MonitorContendedEnter t) (MonitorContendedEntered t) h.

Definition set_can_redefine_classes b c :=
  mkCapabilities b (can_retransform_classes c)
    (can_generate_garbage_collection_events c)
    (can_generate_native_method_bind_events c)
    (can_generate_monitor_events c) (can_get_current_thread_cpu_time c)
    (can_generate_vm_object_alloc_events c) (can_get_monitor_info c)
    (other_capabilities c).
Definition set_can_retransform_classes b c :=
  mkCapabilities (can_redefine_classes c) b
    (can_generate_garbage_collection_events c)
    (can_generate_native_method_bind_events c)
    (can_generate_monitor_events c) (can_get_current_thread_cpu_time c)
    (can_generate_vm_object_alloc_events c) (can_get_monitor_info c)
    (other_capabilities c).
Definition set_can_generate_garbage_collection_events b c :=
  mkCapabilities (can_redefine_classes c) (can_retransform_classes c) b
    (can_generate_native_method_bind_events c)
    (can_generate_monitor_events c) (can_get_current_thread_cpu_time c)
    (can_generate_vm_object_alloc_events c) (can_get_monitor_info c)
    (other_capabilities c).
Definition set_can_generate_native_method_bind_events b c :=
  mkCapabilities (can_redefine_classes c) (can_retransform_classes c)
    (can_generate_garbage_collection_events c) b
    (can_generate_monitor_events c) (can_get_current_thread_cpu_time c)
    (can_generate_vm_object_alloc_events c) (can_get_monitor_info c)
    (other_capabilities c).
Definition set_can_generate_monitor_events b c :=
  mkCapabilities (can_redefine_classes c) (can_retransform_classes c)
    (can_generate_garbage_collection_events c)
    (can_generate_native_method_bind_events c) b
    (can_get_current_thread_cpu_time c)
    (can_generate_vm_object_alloc_events c) (can_get_monitor_info c)
    (other_capabilities c).
Definition set_can_get_current_thread_cpu_time b c :=
  mkCapabilities (can_redefine_classes c) (can_retransform_classes c)
    (can_generate_garbage_collection_events c)
    (can_generate_native_method_bind_events c)
    (can_generate_monitor_events c) b
    (can_generate_vm_object_alloc_events c) (can_get_monitor_info c)
    (other_capabilities c).
Definition set_can_generate_vm_object_alloc_events b c :=
  mkCapabilities (can_redefine_classes c) (can_retransform_classes c)
    (can_generate_garbage_collection_events c)
    (can_generate_native_method_bind_events c)
    (can_generate_monitor_events c) (can_get_current_thread_cpu_time c) b
    (can_get_monitor_info c) (other_capabilities c).
Definition set_can_get_monitor_info b c :=
  mkCapabilities (can_redefine_classes c) (can_retransform_classes c)
    (can_generate_garbage_collection_events c)
    (can_generate_native_method_bind_events c)
    (can_generate_monitor_events c) (can_get_current_thread_cpu_time c)
    (can_generate_vm_object_alloc_events c) b (other_capabilities c).

(** ** Memory accesses and calls through the function table *)

(** A call through [_jvmti] reads the function table behind it. *)
Definition through_jvmti : run unit :=
  fun w =>
    match _jvmti (mem w) with
    | Some _ => Returned tt w
    | None => NullDereference w
    end.

(** [*_jvmti_callbacks] read. *)
Definition load_callbacks : run jvmtiEventCallbacks :=
  fun w =>
    match _jvmti_callbacks (mem w) with
    | addr_jvmti_callbacks_static =>
        Returned (_jvmti_callbacks_static (mem w)) w
    | NULL_callbacks => NullDereference w
    end.

(** [*_jvmti_callbacks] written. *)
Definition store_callbacks (t : jvmtiEventCallbacks) : run unit :=
  fun w =>
    match _jvmti_callbacks (mem w) with
    | addr_jvmti_callbacks_static =>
        Returned tt (mkWorld (set_jvmti_callbacks_static t (mem w)) (log w))
    | NULL_callbacks => NullDereference w
    end.

(** [_jvmti_callbacks->slot = h]. *)
Definition store_slot
    (set : option hook -> jvmtiEventCallbacks -> jvmtiEventCallbacks)
    (h : hook) : run unit :=
  t <- load_callbacks ;; store_callbacks (set (Some h) t).

(** [memset(_jvmti_callbacks, 0, sizeof(jvmtiEventCallbacks))]. *)
Definition memset_callbacks_0 : run unit := store_callbacks zeroed_callbacks.

(** [GetEnv(jvm, &_jvmti, version)], through the function table of [jvm]. *)
Definition call_GetEnv (jvm : JavaVM) (version : jint) : run unit :=
  fun w =>
    let p := GetEnv jvm (log w) version in
    Returned tt
      (mkWorld (set_jvmti p (mem w)) (log w ++ [Called_GetEnv version p])).

Definition call_GetCapabilities (jvm : JavaVM)
  : run (jvmtiError * jvmtiCapabilities) :=
  through_jvmti ;;
  fun w =>
    let r := GetCapabilities jvm (log w) in
    Returned r
      (mkWorld (mem w) (log w ++ [Called_GetCapabilities (fst r) (snd r)])).

Definition call_AddCapabilities (jvm : JavaVM) (capas : jvmtiCapabilities)
  : run jvmtiError :=
  through_jvmti ;;
  fun w =>
    let err := AddCapabilities jvm (log w) capas in
    Returned err
      (mkWorld (mem w) (log w ++ [Called_AddCapabilities capas err])).

(** [SetEventCallbacks(_jvmti, _jvmti_callbacks, sizeof ...)]: the host
    reads the table behind the pointer. *)
Definition call_SetEventCallbacks (jvm : JavaVM) : run jvmtiError :=
  through_jvmti ;;
  t <- load_callbacks ;;
  fun w =>
    let err := SetEventCallbacks jvm (log w) t in
    Returned err
      (mkWorld (mem w) (log w ++ [Called_SetEventCallbacks t err])).

Definition call_SetEventNotificationMode
    (jvm : JavaVM) (mode : jvmtiEventMode) (ev : jvmtiEvent)
  : run jvmtiError :=
  through_jvmti ;;
  fun w =>
    let err := SetEventNotificationMode jvm (log w) mode ev in
    Returned err
      (mkWorld (mem w)
         (log w ++ [Called_SetEventNotificationMode mode ev err])).

(** Modelled from the spec: [parse_options_and_extract_params], declared in
    [common_functions.h] and defined in another file.  The spec has it as an
    external collaborator that takes the raw option string and that this
    file only invokes; here a call is recorded in the log with the string it
    receives, it returns, and it leaves the globals of this file alone. *)
Definition parse_options_and_extract_params (options : string) : run unit :=
  emit (Called_parse_options_and_extract_params (percent_s options)).

(** ** The timer

    [get_nano_time] calls [GetTime] through [_jvmti] with the address of
    the static [_nano_time] and returns that variable; the return code of
    [GetTime] is dropped.  Its world is the memory of the agent together
    with [_nano_time], and a log in which the [GetTime] calls follow the
    events of the entry points.  [GetTime] answers, from that log, with its
    return code and the value it stores through its out-parameter, if it
    stores one. *)







(** ** Three hosts *)

Definition no_capabilities : jvmtiCapabilities :=
  mkCapabilities false false false false false false false false 0.

(** Grants everything. *)
Definition cooperative_host : JavaVM :=
  mkJavaVM (fun _ _ => Some 1%N) (fun _ => (0, no_capabilities))
    (fun _ _ => 0) (fun _ _ => 0) (fun _ _ _ => 0).

(** Refuses the capabilities with [JVMTI_ERROR_NOT_AVAILABLE] and grants
    the rest. *)
Definition host_without_capabilities : JavaVM :=
  mkJavaVM (fun _ _ => Some 1%N) (fun _ => (0, no_capabilities))
    (fun _ _ => 98) (fun _ _ => 0) (fun _ _ _ => 0).

(** Answers [JVMTI_ERROR_INTERNAL] to a table with the [VMInit] slot set
    and to enabling [JVMTI_EVENT_VM_INIT], and grants the rest. *)
Definition host_refusing_VMInit : JavaVM :=
  mkJavaVM (fun _ _ => Some 1%N) (fun _ => (0, no_capabilities))
    (fun _ _ => 0)
    (fun _ t => match VMInit t with Some _ => 113 | None => 0 end)
    (fun _ _ ev => match ev with JVMTI_EVENT_VM_INIT => 113 | _ => 0 end).

(** ** Two more hosts *)

(** Has no JVMTI environment to give: [GetEnv] stores a null pointer. *)
Definition host_without_env : JavaVM :=
  mkJavaVM (fun _ _ => None) (fun _ => (0, no_capabilities))
    (fun _ _ => 0) (fun _ _ => 0) (fun _ _ _ => 0).

(** Gives an environment and then answers [JVMTI_ERROR_INTERNAL] to every
    call. *)
Definition host_failing_every_call : JavaVM :=
  mkJavaVM (fun _ _ => Some 1%N) (fun _ => (113, no_capabilities))
    (fun _ _ => 113) (fun _ _ => 113) (fun _ _ _ => 113).

(** ** The program *)

Section Agent.

(** Whether the build defines [NDEBUG] (then [assert] expands to nothing),
    and whether [jni.h] defines [JNI_VERSION_1_6]. *)
Variable NDEBUG : bool.
Variable JNI_VERSION_1_6 : bool.

Definition assert (b : bool) : run unit :=
  fun w => if NDEBUG || b then Returned tt w else AssertionFailed w.

Definition report_usage : run unit :=
  fprintf stderr
    ("Profiler Agent: -agentpath:<PATH>/profilerinterface should be called with two parameters:" ++ LF) ;;
  fprintf stderr
    ("Profiler Agent: path to Profiler agent libraries and port number, separated by comma, for example:" ++ LF) ;;
  fprintf stderr
    ("Profiler Agent: java -agentpath:/mypath/profilerinterface=/home/me/nb-profiler-server/profiler-ea-libs,5500" ++ LF).

Definition initializeJVMTI (jvm : JavaVM) : run unit :=
  call_GetEnv jvm
    (if JNI_VERSION_1_6 then JVMTI_VERSION_1_1 else JVMTI_VERSION_1_0) ;;
  r <- call_GetCapabilities jvm ;;
  let err := fst r in
  let capas := snd r in
  assert (err =? JVMTI_ERROR_NONE) ;;
  let capas := set_can_redefine_classes true capas in
  let capas :=
    if JNI_VERSION_1_6 then set_can_retransform_classes true capas
    else capas in
  let capas := set_can_generate_garbage_collection_events true capas in
  let capas := set_can_generate_native_method_bind_events true capas in
  let capas := set_can_generate_monitor_events true capas in
  let capas := set_can_get_current_thread_cpu_time true capas in
  let capas := set_can_generate_vm_object_alloc_events true capas in
  let capas := set_can_get_monitor_info true capas in
  err <- call_AddCapabilities jvm capas ;;
  (if negb (err =? JVMTI_ERROR_NONE) then
     fprintf stderr
       ("Profiler Agent Error: Failed to obtain JVMTI capabilities, error code: "
          ++ percent_d err ++ LF)
   else ret tt) ;;
  g <- read_globals ;;
  write_globals (set_jvmti_callbacks addr_jvmti_callbacks_static g) ;;
  memset_callbacks_0 ;;
  store_slot set_ClassFileLoadHook class_file_load_hook ;;
  store_slot set_NativeMethodBind native_method_bind_hook ;;
  store_slot set_MonitorContendedEnter monitor_contended_enter_hook ;;
  store_slot set_MonitorContendedEntered monitor_contended_entered_hook ;;
  store_slot set_VMObjectAlloc vm_object_alloc ;;
  res <- call_SetEventCallbacks jvm ;;
  assert (res =? JVMTI_ERROR_NONE) ;;
  res <- call_SetEventNotificationMode jvm
           JVMTI_ENABLE JVMTI_EVENT_CLASS_FILE_LOAD_HOOK ;;
  assert (res =? JVMTI_ERROR_NONE) ;;
  res <- call_SetEventNotificationMode jvm
           JVMTI_ENABLE JVMTI_EVENT_NATIVE_METHOD_BIND ;;
  assert (res =? JVMTI_ERROR_NONE) ;;
  res <- call_SetEventNotificationMode jvm
           JVMTI_ENABLE JVMTI_EVENT_MONITOR_CONTENDED_ENTER ;;
  assert (res =? JVMTI_ERROR_NONE) ;;
  res <- call_SetEventNotificationMode jvm
           JVMTI_ENABLE JVMTI_EVENT_MONITOR_CONTENDED_ENTERED ;;
  assert (res =? JVMTI_ERROR_NONE).

Definition JNI_OnLoad (jvm : JavaVM) : run jint :=
  g <- read_globals ;;
  (match _jvmti g with
   | None =>
       fprintf stdout ("Profiler Agent: JNI OnLoad Initializing..." ++ LF) ;;
       initializeJVMTI jvm ;;
       fprintf stdout
         ("Profiler Agent: JNI OnLoad Initialized successfully" ++ LF)
   | Some _ => ret tt
   end) ;;
  ret JNI_VERSION_1_2.

(** [options] is a [char *]: [None] is the null pointer.  The value of
    the inner block is [Some r] where the C code executes [return r]. *)
Definition Agent_OnLoad (jvm : JavaVM) (options : option string) : run jint :=
  fprintf stdout ("Profiler Agent: Initializing..." ++ LF) ;;
  initializeJVMTI jvm ;;
  match options with
  | Some o =>
      fprintf stdout
        ("Profiler Agent: Options: >" ++ percent_s o ++ "<" ++ LF)
  | None => fprintf stdout ("Profiler Agent: No options" ++ LF)
  end ;;
  early <-
    match options with
    | Some o =>
        if (0 <? strlen o)%nat then
          match strpbrk o "," with
          | None => report_usage ;; ret (Some (-1))
          | Some _ =>
              parse_options_and_extract_params o ;;
              store_slot set_VMInit vm_init_hook ;;
              _ <- call_SetEventCallbacks jvm ;;
              _ <- call_SetEventNotificationMode jvm
                     JVMTI_ENABLE JVMTI_EVENT_VM_INIT ;;
              ret None
          end
        else ret None
    | None => ret None
    end ;;
  match early with
  | Some r => ret r
  | None =>
      fprintf stdout ("Profiler Agent: Initialized successfully" ++ LF) ;;
      ret 0
  end.

(** ** Vocabulary of the properties *)

(** The table [initializeJVMTI] builds: zeroed, then five slots filled. *)
Definition five_slot_table : jvmtiEventCallbacks :=
  mkCallbacks None
    (Some class_file_load_hook) (Some native_method_bind_hook)
    (Some monitor_contended_enter_hook) (Some monitor_contended_entered_hook)
    (Some vm_object_alloc).

Definition six_slot_table : jvmtiEventCallbacks :=
  set_VMInit (Some vm_init_hook) five_slot_table.

Definition jvmti_version : jint :=
  if JNI_VERSION_1_6 then JVMTI_VERSION_1_1 else JVMTI_VERSION_1_0.

(** What the host reported, with the eight capabilities added;
    retransformation only in a build that has [JNI_VERSION_1_6]. *)
Definition requested_capabilities (reported : jvmtiCapabilities)
  : jvmtiCapabilities :=
  mkCapabilities true (JNI_VERSION_1_6 || can_retransform_classes reported)
    true true true true true true (other_capabilities reported).

Definition negotiation_failure_message (err : jvmtiError) : string :=
  ("Profiler Agent Error: Failed to obtain JVMTI capabilities, error code: "
     ++ percent_d err ++ LF)%string.

Definition enabled (ev : jvmtiEvent) (err : jvmtiError) : event :=
  Called_SetEventNotificationMode JVMTI_ENABLE ev err.

Definition four_enables (r1 r2 r3 r4 : jvmtiError) : list event :=
  [enabled JVMTI_EVENT_CLASS_FILE_LOAD_HOOK r1;
   enabled JVMTI_EVENT_NATIVE_METHOD_BIND r2;
   enabled JVMTI_EVENT_MONITOR_CONTENDED_ENTER r3;
   enabled JVMTI_EVENT_MONITOR_CONTENDED_ENTERED r4].

(** The events of the negotiation: the failure message follows a failed
    [AddCapabilities]. *)
Definition negotiation
    (env : jvmtiEnv) (err0 : jvmtiError) (reported : jvmtiCapabilities)
    (err : jvmtiError) : list event :=
  [Called_GetEnv jvmti_version (Some env);
   Called_GetCapabilities err0 reported;
   Called_AddCapabilities (requested_capabilities reported) err]
  ++ (if err =? JVMTI_ERROR_NONE then []
      else [Printed stderr (negotiation_failure_message err)]).

(** The condition an [assert] lets through. *)
Definition passes (err : jvmtiError) : Prop :=
  NDEBUG = false -> err = JVMTI_ERROR_NONE.


(** Every enable in [new] comes after a registration of the zeroed table
    with the five slots filled, whose result passed its [assert]. *)
Definition enables_follow_registration (new : list event) : Prop :=
  forall pre ev r post,
    new = pre ++ Called_SetEventNotificationMode JVMTI_ENABLE ev r :: post ->
    exists t r0,
      In (Called_SetEventCallbacks t r0) pre /\
      VMInit t = None /\
      ClassFileLoadHook t = Some class_file_load_hook /\
      NativeMethodBind t = Some native_method_bind_hook /\
      MonitorContendedEnter t = Some monitor_contended_enter_hook /\
      MonitorContendedEntered t = Some monitor_contended_entered_hook /\
      VMObjectAlloc t = Some vm_object_alloc /\
      passes r0.

(** The number of capability negotiations in a log. *)
Fixpoint negotiations (l : list event) : nat :=
  match l with
  | [] => 0
  | Called_AddCapabilities _ _ :: l' => S (negotiations l')
  | _ :: l' => negotiations l'
  end.

(** The tables registered in a log, oldest first. *)
Fixpoint registrations (l : list event) : list jvmtiEventCallbacks :=
  match l with
  | [] => []
  | Called_SetEventCallbacks t _ :: l' => t :: registrations l'
  | _ :: l' => registrations l'
  end.

(** After each registration in [new] no further registration follows, and
    the table in memory at the end is the one that was registered. *)
Definition registered_once_then_frozen
    (new : list event) (table_at_end : jvmtiEventCallbacks) : Prop :=
  forall pre t r post,
    new = pre ++ Called_SetEventCallbacks t r :: post ->
    registrations post = [] /\ table_at_end = t.

(** The world in which [Agent_OnLoad] starts the initialization. *)
Definition announced (w : world) : world :=
  mkWorld (mem w)
    (log w ++ [Printed stdout ("Profiler Agent: Initializing..." ++ LF)]).

(** The line [Agent_OnLoad] prints about its options. *)
Definition options_line (options : option string) : string :=
  match options with
  | Some o => ("Profiler Agent: Options: >" ++ percent_s o ++ "<" ++ LF)%string
  | None => ("Profiler Agent: No options" ++ LF)%string
  end.


Definition comma : ascii := ","%char.

(** The characters of the C string [s]. *)
Definition chars (s : string) : list ascii :=
  list_ascii_of_string (percent_s s).

(** [answered call name]: the host's answer to [call] goes by [name]. *)
Definition answered {A} (call name : A) : Prop := call = name.

(** Whether the option string is there and has a comma. *)
Definition has_comma (options : option string) : bool :=
  match options with
  | Some o => existsb (Ascii.eqb comma) (chars o)
  | None => false
  end.

(** Whether the option string is there, is not empty and has no comma. *)
Definition usage_error (options : option string) : bool :=
  match options with
  | Some o =>
      match chars o with
      | [] => false
      | _ :: _ => negb (has_comma options)
      end
  | None => false
  end.

(** The three lines of the usage message, as the source of
    [report_usage] has them. *)
Definition usage_text : list string :=
  [("Profiler Agent: -agentpath:<PATH>/profilerinterface should be called with two parameters:" ++ LF)%string;
   ("Profiler Agent: path to Profiler agent libraries and port number, separated by comma, for example:" ++ LF)%string;
   ("Profiler Agent: java -agentpath:/mypath/profilerinterface=/home/me/nb-profiler-server/profiler-ea-libs,5500" ++ LF)%string].

(** The callback table with the [VMInit] slot holding [vm_init_hook] beside
    the five slots. *)
Definition table_with_VMInit : jvmtiEventCallbacks :=
  mkCallbacks (Some vm_init_hook)
    (Some class_file_load_hook) (Some native_method_bind_hook)
    (Some monitor_contended_enter_hook) (Some monitor_contended_entered_hook)
    (Some vm_object_alloc).

(** The line [Agent_OnLoad] prints last when it reports success. *)
Definition success_line : string :=
  ("Profiler Agent: Initialized successfully" ++ LF)%string.

(** The lines of a log that went to the standard error stream, oldest
    first. *)
Fixpoint stderr_lines (l : list event) : list string :=
  match l with
  | [] => []
  | Printed stderr text :: l' => text :: stderr_lines l'
  | _ :: l' => stderr_lines l'
  end.

(** The events after which a run of [initializeJVMTI] goes no further: a
    [GetEnv] that stored a null pointer, and, in a build with [assert]s, a
    failed call whose result is asserted. *)
Definition stops_the_run (e : event) : Prop :=
  match e with
  | Called_GetEnv _ None => True
  | Called_GetCapabilities err _
  | Called_SetEventCallbacks _ err
  | Called_SetEventNotificationMode _ _ err =>
      NDEBUG = false /\ err <> JVMTI_ERROR_NONE
  | _ => False
  end.

(** ** Lists cut at one element *)

Fixpoint cuts {A} (l : list A) : list (list A * A * list A) :=
  match l with
  | [] => []
  | x :: l' =>
      ([], x, l') :: map (fun c => (x :: fst (fst c), snd (fst c), snd c)) (cuts l')
  end.

Lemma cuts_complete {A} (l pre post : list A) (x : A) :
  l = pre ++ x :: post -> In (pre, x, post) (cuts l).
Proof.
  revert l. induction pre as [|a pre IH]; intros l ->; simpl.
  - now left.
  - right. apply in_map_iff. exists (pre, x, post). split; [reflexivity|].
    now apply IH.
Qed.

(** ** How the request and the table are built *)

Lemma request_built reported :
  set_can_get_monitor_info true
    (set_can_generate_vm_object_alloc_events true
       (set_can_get_current_thread_cpu_time true
          (set_can_generate_monitor_events true
             (set_can_generate_native_method_bind_events true
                (set_can_generate_garbage_collection_events true
                   (if JNI_VERSION_1_6
                    then set_can_retransform_classes true
                           (set_can_redefine_classes true reported)
                    else set_can_redefine_classes true reported))))))
  = requested_capabilities reported.
Proof. unfold requested_capabilities. now destruct JNI_VERSION_1_6. Qed.

Lemma table_built :
  set_VMObjectAlloc (Some vm_object_alloc)
    (set_MonitorContendedEntered (Some monitor_contended_entered_hook)
       (set_MonitorContendedEnter (Some monitor_contended_enter_hook)
          (set_NativeMethodBind (Some native_method_bind_hook)
             (set_ClassFileLoadHook (Some class_file_load_hook)
                zeroed_callbacks))))
  = five_slot_table.
Proof. vm_compute. reflexivity. Qed.

(** ** Symbolic execution

    [run_in H] computes a run in [H : o = program w]; [name_answer H] gives
    the oldest answer of the host that has none a name; [case_run H] splits
    on the test the run is waiting for. *)

Ltac reduce_in H :=
  cbn [mem log _jvmti _jvmti_callbacks _jvmti_callbacks_static
       fst snd negb] in H;
  rewrite ?request_built, ?table_built in H;
  fold jvmti_version in H.

Ltac run_in H :=
  cbv beta iota zeta delta
    [initializeJVMTI JNI_OnLoad Agent_OnLoad report_usage
     bind ret emit fprintf read_globals write_globals assert
     through_jvmti load_callbacks store_callbacks store_slot
     memset_callbacks_0 call_GetEnv call_GetCapabilities
     call_AddCapabilities call_SetEventCallbacks
     call_SetEventNotificationMode parse_options_and_extract_params
     set_jvmti set_jvmti_callbacks set_jvmti_callbacks_static] in H;
  reduce_in H.

Ltac no_pending_call l :=
  lazymatch l with
  | context [GetEnv _ _ _] => fail
  | context [GetCapabilities _ _] => fail
  | context [AddCapabilities _ _ _] => fail
  | context [SetEventCallbacks _ _ _] => fail
  | context [SetEventNotificationMode _ _ _ _] => fail
  | _ => idtac
  end.

Ltac name_answer H :=
  match type of H with
  | context [GetEnv ?j ?l ?v] =>
      no_pending_call l;
      let penv := fresh "penv" in
      let E := fresh "HGetEnv" in
      remember (GetEnv j l v) as penv eqn:E; symmetry in E;
      change (answered (GetEnv j l v) penv) in E
  | context [GetCapabilities ?j ?l] =>
      no_pending_call l;
      let e := fresh "err" in
      let c := fresh "capas" in
      let E := fresh "HGetCapabilities" in
      destruct (GetCapabilities j l) as [e c] eqn:E
  | context [AddCapabilities ?j ?l ?c] =>
      no_pending_call l;
      let e := fresh "err" in
      let E := fresh "HAddCapabilities" in
      remember (AddCapabilities j l c) as e eqn:E; symmetry in E;
      change (answered (AddCapabilities j l c) e) in E
  | context [SetEventCallbacks ?j ?l ?t] =>
      no_pending_call l;
      let e := fresh "res" in
      let E := fresh "HSetEventCallbacks" in
      remember (SetEventCallbacks j l t) as e eqn:E; symmetry in E;
      change (answered (SetEventCallbacks j l t) e) in E
  | context [SetEventNotificationMode ?j ?l ?m ?ev] =>
      no_pending_call l;
      let e := fresh "res" in
      let E := fresh "HSetEventNotificationMode" in
      remember (SetEventNotificationMode j l m ev) as e eqn:E; symmetry in E;
      change (answered (SetEventNotificationMode j l m ev) e) in E
  end; reduce_in H.

Ltac innermost t k :=
  lazymatch t with
  | match ?x with _ => _ end => innermost x k
  | ?f ?x =>
      lazymatch f with
      | match _ with _ => _ end => innermost f k
      | _ => k t
      end
  | _ => k t
  end.

Ltac case_run H :=
  lazymatch type of H with
  | _ = ?t =>
      innermost t ltac:(fun x =>
        lazymatch x with
        | Returned _ _ => fail
        | AssertionFailed _ => fail
        | NullDereference _ => fail
        | _ => revert H; destruct x eqn:?; intro H
        end)
  end; reduce_in H.

Ltac step_run H := first [name_answer H | case_run H].

Ltac finish_run H :=
  rewrite H; cbn [final mem log has_returned];
  rewrite <- ?app_assoc; cbn [app].

Ltac each_cut E :=
  apply cuts_complete in E; cbn [cuts map fst snd] in E;
  simpl In in E;
  repeat (destruct E as [E|E]; [inversion E; clear E; subst|]);
  try contradiction.

(** ** C strings *)

Example strlen_5500 : strlen "5500" = 4%nat.
Proof. reflexivity. Qed.

Example strlen_stops_at_NUL :
  strlen (String "a" (String zero (String "b" EmptyString))) = 1%nat.
Proof. reflexivity. Qed.

Example strpbrk_5500 : strpbrk "5500" "," = None.
Proof. reflexivity. Qed.

Example strpbrk_finds_the_first_comma :
  strpbrk "/home/me/server,5500,extra" "," = Some ",5500,extra".
Proof. reflexivity. Qed.

Example percent_d_98 : percent_d 98 = "98".
Proof. reflexivity. Qed.

Example percent_d_minus_1 : percent_d (-1) = "-1".
Proof. reflexivity. Qed.

Lemma strlen_positive s :
  percent_s s <> EmptyString -> (0 <? strlen s)%nat = true.
Proof.
  destruct s as [|c s]; simpl; [congruence|].
  destruct (is_NUL c); [congruence|reflexivity].
Qed.

Lemma strlen_empty s :
  percent_s s = EmptyString -> (0 <? strlen s)%nat = false.
Proof.
  destruct s as [|c s]; simpl; [reflexivity|].
  destruct (is_NUL c); [reflexivity|discriminate].
Qed.

Lemma accepts_comma c : accepts "," c = Ascii.eqb comma c.
Proof.
  change (accepts "," c) with (if Ascii.eqb comma c then true else false).
  now destruct (Ascii.eqb comma c).
Qed.

Lemma strpbrk_no_comma s :
  ~ In comma (chars s) -> strpbrk s "," = None.
Proof.
  unfold chars. induction s as [|c s IH]; [reflexivity|].
  cbn [strpbrk percent_s]. rewrite accepts_comma.
  destruct (is_NUL c); [reflexivity|].
  cbn [list_ascii_of_string In]. intros H.
  destruct (Ascii.eqb_spec comma c) as [E|_].
  - exfalso. apply H. now left.
  - apply IH. intros Hin. apply H. now right.
Qed.

Lemma strpbrk_comma s :
  In comma (chars s) ->
  percent_s s <> EmptyString /\ exists tail, strpbrk s "," = Some tail.
Proof.
  unfold chars. induction s as [|c s IH]; [contradiction|].
  cbn [strpbrk percent_s]. rewrite accepts_comma.
  destruct (is_NUL c); [contradiction|].
  cbn [list_ascii_of_string In]. intros H.
  split; [discriminate|].
  destruct (Ascii.eqb_spec comma c) as [E|Hne]; [eauto|].
  destruct H as [H|H]; [congruence|]. exact (proj2 (IH H)).
Qed.

Lemma has_comma_tests o :
  has_comma (Some o) =
    (0 <? strlen o)%nat
    && match strpbrk o "," with Some _ => true | None => false end.
Proof.
  unfold has_comma, chars. induction o as [|c o IH]; [reflexivity|].
  cbn [strpbrk percent_s strlen]. rewrite accepts_comma.
  destruct (is_NUL c); [reflexivity|].
  cbn [list_ascii_of_string existsb Nat.ltb Nat.leb andb].
  destruct (Ascii.eqb comma c); [reflexivity|].
  rewrite IH. cbn [orb]. clear IH.
  destruct o as [|d o]; [reflexivity|]. cbn [strlen strpbrk].
  now destruct (is_NUL d).
Qed.

(** ** The [assert]s *)

Lemma assert_passes err :
  NDEBUG || (err =? JVMTI_ERROR_NONE) = true <-> passes err.
Proof.
  unfold passes. destruct NDEBUG; simpl.
  - split; [discriminate|reflexivity].
  - rewrite Z.eqb_eq. tauto.
Qed.

Ltac tidy_hyps :=
  repeat match goal with
    | H : _ || _ = true |- _ => apply assert_passes in H
    | H : negb _ = true |- _ => apply negb_true_iff in H
    | H : negb _ = false |- _ => apply negb_false_iff in H
    end.

(** ** The initialization sequence *)

(** A run of [initializeJVMTI] that returns has made every call, and each
    asserted result has passed. *)
Lemma initializeJVMTI_returned jvm w w1 :
  initializeJVMTI jvm w = Returned tt w1 ->
  exists env e0 c0 ea r0 r1 r2 r3 r4,
    mem w1 = mkGlobals (Some env) addr_jvmti_callbacks_static five_slot_table /\
    log w1 =
      log w ++ negotiation env e0 c0 ea
        ++ Called_SetEventCallbacks five_slot_table r0
           :: four_enables r1 r2 r3 r4 /\
    passes e0 /\ passes r0 /\
    passes r1 /\ passes r2 /\ passes r3 /\ passes r4.
Proof.
  intros H. remember (initializeJVMTI jvm w) as o eqn:Ho.
  run_in Ho. repeat step_run Ho.
  all: rewrite Ho in H; try discriminate H.
  all: injection H as <-; tidy_hyps.
  all: do 9 eexists; cbn [mem log]; unfold negotiation.
  all: match goal with E : (_ =? _) = _ |- _ => rewrite E end.
  all: rewrite <- ?app_assoc; cbn [app].
  all: repeat (split; [reflexivity || eassumption|]); eassumption.
Qed.

Ltac give_new :=
  first [ eexists; split; [reflexivity|]
        | exists []; split; [symmetry; apply app_nil_r|] ].

Ltac all_runs o :=
  let Ho := fresh "Ho" in
  remember o as r eqn:Ho; run_in Ho; repeat step_run Ho; finish_run Ho;
  tidy_hyps.

(** C2: in every run of the initialization sequence, whether entered
    directly, from [JNI_OnLoad] or from [Agent_OnLoad], and however the run
    ends, each call that enables a notification is preceded in the log by a
    [SetEventCallbacks] call that registered the table with the [VMInit]
    slot still zero and the five slots class-file-load, native-method-bind,
    monitor-contended-enter, monitor-contended-entered and object-allocation
    set to their handlers; in a build with [assert]s that registration had
    succeeded. *)
Theorem notifications_enabled_after_registration jvm w options :
  (exists new,
     log (final (initializeJVMTI jvm w)) = log w ++ new /\
     enables_follow_registration new) /\
  (exists new,
     log (final (JNI_OnLoad jvm w)) = log w ++ new /\
     enables_follow_registration new) /\
  (exists new,
     log (final (Agent_OnLoad jvm options w)) = log w ++ new /\
     enables_follow_registration new).
Proof.
  split; [|split].
  - all_runs (initializeJVMTI jvm w).
    all: give_new; intros pre ev r0 post E; each_cut E.
    all: exists five_slot_table; eexists; (split; [simpl; eauto 10|]).
    all: cbn; auto 10.
  - all_runs (JNI_OnLoad jvm w).
    all: give_new; intros pre ev r0 post E; each_cut E.
    all: exists five_slot_table; eexists; (split; [simpl; eauto 10|]).
    all: cbn; auto 10.
  - all_runs (Agent_OnLoad jvm options w).
    all: give_new; intros pre ev r0 post E; each_cut E.
    all: exists five_slot_table; eexists; (split; [simpl; eauto 20|]).
    all: cbn; auto 10.
Qed.

(** In every run, [initializeJVMTI] calls [AddCapabilities] at most once,
    exactly once when it returns, and the set it passes is the one
    [GetCapabilities] has just reported with [can_redefine_classes],
    [can_generate_garbage_collection_events],
    [can_generate_native_method_bind_events], [can_generate_monitor_events],
    [can_get_current_thread_cpu_time], [can_generate_vm_object_alloc_events]
    and [can_get_monitor_info] set, [can_retransform_classes] set when the
    build has [JNI_VERSION_1_6] and left as reported otherwise, and every
    other capability left as reported. *)
Lemma requests_carry_the_fixed_set jvm w :
  exists new,
    log (final (initializeJVMTI jvm w)) = log w ++ new /\
    (negotiations new <= 1)%nat /\
    (if has_returned (initializeJVMTI jvm w)
     then negotiations new = 1%nat else True) /\
    forall pre c err post,
      new = pre ++ Called_AddCapabilities c err :: post ->
      exists version env err0 reported,
        pre = [Called_GetEnv version env;
               Called_GetCapabilities err0 reported] /\
        can_redefine_classes c = true /\
        can_retransform_classes c
          = (JNI_VERSION_1_6 || can_retransform_classes reported) /\
        can_generate_garbage_collection_events c = true /\
        can_generate_native_method_bind_events c = true /\
        can_generate_monitor_events c = true /\
        can_get_current_thread_cpu_time c = true /\
        can_generate_vm_object_alloc_events c = true /\
        can_get_monitor_info c = true /\
        other_capabilities c = other_capabilities reported.
Proof.
  all_runs (initializeJVMTI jvm w).
  all: give_new.
  all: split; [cbn; lia|]; split; [reflexivity|].
  all: intros pre c e post E; each_cut E.
  all: do 4 eexists; split; [reflexivity|]; cbn; auto 10.
Qed.

(** C9: once [GetEnv] has stored a handle and the result of
    [GetCapabilities] has passed its [assert], [initializeJVMTI] makes the
    [AddCapabilities] call as its next step, and makes no other in the rest
    of the run.  The set it passes is the one [GetCapabilities] has just
    reported with [can_redefine_classes],
    [can_generate_garbage_collection_events],
    [can_generate_native_method_bind_events], [can_generate_monitor_events],
    [can_get_current_thread_cpu_time], [can_generate_vm_object_alloc_events]
    and [can_get_monitor_info] set, [can_retransform_classes] set when the
    build has [JNI_VERSION_1_6] and left as reported otherwise, and every
    other capability left as reported. *)
Theorem capabilities_requested_once jvm w env err0 reported :
  let log1 := log w ++ [Called_GetEnv jvmti_version (Some env)] in
  let log2 := log1 ++ [Called_GetCapabilities err0 reported] in
  let request :=
    mkCapabilities true
      (JNI_VERSION_1_6 || can_retransform_classes reported)
      true true true true true true (other_capabilities reported) in
  GetEnv jvm (log w) jvmti_version = Some env ->
  GetCapabilities jvm log1 = (err0, reported) ->
  passes err0 ->
  exists rest,
    log (final (initializeJVMTI jvm w)) =
      log2
        ++ Called_AddCapabilities request (AddCapabilities jvm log2 request)
           :: rest /\
    negotiations rest = 0%nat.
Proof.
  intros log1 log2 request HEnv HCaps Hpass.
  subst log1 log2 request.
  change (mkCapabilities true
            (JNI_VERSION_1_6 || can_retransform_classes reported)
            true true true true true true (other_capabilities reported))
    with (requested_capabilities reported).
  remember (initializeJVMTI jvm w) as o eqn:Ho. run_in Ho.
  rewrite HEnv in Ho; reduce_in Ho.
  rewrite HCaps in Ho; reduce_in Ho.
  rewrite (proj2 (assert_passes err0) Hpass) in Ho; reduce_in Ho.
  set (err := AddCapabilities jvm _ _) in *.
  repeat step_run Ho.
  all: rewrite Ho; cbn [final mem log].
  all: eexists.
  all: split; [rewrite <- ?app_assoc; cbn [app]; reflexivity|reflexivity].
Qed.

Lemma assert_fails err :
  NDEBUG || (err =? JVMTI_ERROR_NONE) = false ->
  NDEBUG = false /\ err <> JVMTI_ERROR_NONE.
Proof.
  intros H. apply orb_false_iff in H. destruct H as [H1 H2].
  split; [assumption|]. now apply Z.eqb_neq.
Qed.


(** ** The handshake of [Agent_OnLoad] *)

(** [after_initialization Ho Hinit] runs the rest of [Agent_OnLoad] in
    [Ho] from the world [w1] that [Hinit] says the initialization returned. *)
Ltac after_initialization Ho Hinit :=
  cbv beta iota zeta delta [Agent_OnLoad bind fprintf emit ret] in Ho;
  cbn [mem log] in Ho;
  match type of Hinit with
  | initializeJVMTI ?j (announced ?w) = _ =>
      change (initializeJVMTI j
                (mkWorld (mem w)
                   (log w ++
                    [Printed stdout ("Profiler Agent: Initializing..." ++ LF)])))
        with (initializeJVMTI j (announced w)) in Ho
  end;
  rewrite Hinit in Ho;
  let env := fresh "env" in
  let Hmem := fresh "Hmem" in
  let Hlog := fresh "Hlog" in
  destruct (initializeJVMTI_returned _ _ _ Hinit)
    as (env & ?e0 & ?c0 & ?ea & ?r0 & ?r1 & ?r2 & ?r3 & ?r4
        & Hmem & Hlog & ? & ? & ? & ? & ? & ?);
  rewrite ?Hmem in Ho; cbn [mem log] in Ho.

(** C3: for an option string that is not empty and has no comma, once the
    initialization has returned, [Agent_OnLoad] prints the option line and
    then, on the standard error stream, the three lines of the usage
    message, which say that the agent takes two parameters, the path to the
    agent libraries and the port number separated by a comma, and give an
    example; it returns -1 to the host; it returns rather than exits, it
    does not call the option parser, and it leaves the memory as the
    initialization left it, with the [VMInit] slot unset and no enable of
    [JVMTI_EVENT_VM_INIT]. *)
Theorem usage_error_returns_failure jvm w w1 options :
  percent_s options <> EmptyString ->
  ~ In comma (chars options) ->
  initializeJVMTI jvm (announced w) = Returned tt w1 ->
  Agent_OnLoad jvm (Some options) w =
    Returned (-1)
      (mkWorld (mem w1)
         (log w1 ++
          [Printed stdout (options_line (Some options));
           Printed stderr
             ("Profiler Agent: -agentpath:<PATH>/profilerinterface should be called with two parameters:" ++ LF);
           Printed stderr
             ("Profiler Agent: path to Profiler agent libraries and port number, separated by comma, for example:" ++ LF);
           Printed stderr
             ("Profiler Agent: java -agentpath:/mypath/profilerinterface=/home/me/nb-profiler-server/profiler-ea-libs,5500" ++ LF)]))
  /\ VMInit (_jvmti_callbacks_static (mem w1)) = None.
Proof.
  intros Hne Hcomma Hinit.
  remember (Agent_OnLoad jvm (Some options) w) as o eqn:Ho.
  after_initialization Ho Hinit.
  rewrite (strlen_positive _ Hne), (strpbrk_no_comma _ Hcomma) in Ho.
  run_in Ho. rewrite Ho, Hmem. split.
  - rewrite <- !app_assoc. reflexivity.
  - reflexivity.
Qed.

(** C4: for an option string with a comma, once the initialization has
    returned, [Agent_OnLoad] prints the option line, hands the string to the
    option parser, stores [vm_init_hook] in the [VMInit] slot (the one slot
    added to the five), registers the table with that slot set, enables
    [JVMTI_EVENT_VM_INIT], prints the success line and returns 0, whatever
    the host answers to the two calls and whatever follows the first comma;
    nothing goes to the standard error stream. *)
Theorem well_formed_options_arm_the_VMInit_hook jvm w w1 options :
  let log2 :=
    log w1 ++
    [Printed stdout (options_line (Some options));
     Called_parse_options_and_extract_params (percent_s options)] in
  let res5 := SetEventCallbacks jvm log2 table_with_VMInit in
  let log3 := log2 ++ [Called_SetEventCallbacks table_with_VMInit res5] in
  let res6 :=
    SetEventNotificationMode jvm log3 JVMTI_ENABLE JVMTI_EVENT_VM_INIT in
  In comma (chars options) ->
  initializeJVMTI jvm (announced w) = Returned tt w1 ->
  Agent_OnLoad jvm (Some options) w =
    Returned 0
      (mkWorld
         (mkGlobals (_jvmti (mem w1)) addr_jvmti_callbacks_static
            table_with_VMInit)
         (log3 ++
          [Called_SetEventNotificationMode
             JVMTI_ENABLE JVMTI_EVENT_VM_INIT res6;
           Printed stdout
             ("Profiler Agent: Initialized successfully" ++ LF)]))
  /\ _jvmti_callbacks_static (mem w1) = five_slot_table
  /\ VMInit table_with_VMInit = Some vm_init_hook.
Proof.
  intros log2 res5 log3 res6 Hcomma Hinit. subst log2 res5 log3 res6.
  destruct (strpbrk_comma _ Hcomma) as [Hne [tail Htail]].
  remember (Agent_OnLoad jvm (Some options) w) as o eqn:Ho.
  after_initialization Ho Hinit.
  rewrite (strlen_positive _ Hne), Htail in Ho.
  run_in Ho. rewrite Ho, Hmem.
  split; [|repeat split].
  rewrite <- !app_assoc. reflexivity.
Qed.

(** C5: for a null or an empty option string, once the initialization has
    returned, [Agent_OnLoad] prints the option line and the success line on
    the standard output and returns 0; it does not call the option parser,
    prints no usage message, and leaves the memory as the initialization
    left it, with the [VMInit] slot unset and no enable of
    [JVMTI_EVENT_VM_INIT]. *)
Theorem calibration_run jvm w w1 options :
  options = None \/ (exists o, options = Some o /\ percent_s o = EmptyString) ->
  initializeJVMTI jvm (announced w) = Returned tt w1 ->
  Agent_OnLoad jvm options w =
    Returned 0
      (mkWorld (mem w1)
         (log w1 ++
          [Printed stdout (options_line options);
           Printed stdout ("Profiler Agent: Initialized successfully" ++ LF)]))
  /\ VMInit (_jvmti_callbacks_static (mem w1)) = None.
Proof.
  intros Hopt Hinit.
  remember (Agent_OnLoad jvm options w) as o eqn:Ho.
  after_initialization Ho Hinit.
  destruct Hopt as [->|(s & -> & Hs)].
  - run_in Ho. rewrite Ho, Hmem. split; [|reflexivity].
    rewrite <- !app_assoc. reflexivity.
  - rewrite (strlen_empty _ Hs) in Ho.
    run_in Ho. rewrite Ho, Hmem. split; [|reflexivity].
    rewrite <- !app_assoc. reflexivity.
Qed.


(** ** The guard of [JNI_OnLoad] *)

Lemma JNI_OnLoad_skips jvm w :
  _jvmti (mem w) <> None -> JNI_OnLoad jvm w = Returned JNI_VERSION_1_2 w.
Proof.
  intros H. unfold JNI_OnLoad, bind, read_globals, ret.
  destruct (_jvmti (mem w)); [reflexivity|congruence].
Qed.

(** C7: a [JNI_OnLoad] call that finds a handle returns [JNI_VERSION_1_2]
    at once, with no call, no output and no change of the memory.  So when
    a first call made without a handle returns, it has negotiated exactly
    once and left a handle, and a second call is such a no-op: the two
    calls together negotiate exactly once. *)
Theorem JNI_OnLoad_twice_negotiates_once jvm jvm' w0 w1 r :
  _jvmti (mem w0) = None ->
  JNI_OnLoad jvm w0 = Returned r w1 ->
  (exists new, log w1 = log w0 ++ new /\ negotiations new = 1%nat) /\
  _jvmti (mem w1) <> None /\
  JNI_OnLoad jvm' w1 = Returned JNI_VERSION_1_2 w1 /\
  (forall w, _jvmti (mem w) <> None ->
             JNI_OnLoad jvm' w = Returned JNI_VERSION_1_2 w).
Proof.
  intros Hnull Hrun.
  assert (H : (exists new, log w1 = log w0 ++ new /\
                           negotiations new = 1%nat) /\
              _jvmti (mem w1) <> None).
  { remember (JNI_OnLoad jvm w0) as o eqn:Ho.
    run_in Ho. rewrite Hnull in Ho. reduce_in Ho.
    repeat step_run Ho.
    all: rewrite Ho in Hrun; try discriminate Hrun.
    all: injection Hrun as <- <-; cbn [mem log _jvmti].
    all: rewrite <- ?app_assoc; cbn [app].
    all: split; [eexists; split; reflexivity|discriminate]. }
  destruct H as [Hnew Hhandle].
  repeat split; try assumption.
  - now apply JNI_OnLoad_skips.
  - intros w. apply JNI_OnLoad_skips.
Qed.

(** ** Registrations of the callback table *)

Ltac frozen_or_twice :=
  first [ split; reflexivity
        | let E := fresh "E" in
          intros ? ? ? ? E; each_cut E; split; reflexivity ].

(** C6, as the code has it: within one call, on every path of
    [JNI_OnLoad] and on every path of [Agent_OnLoad] other than the
    completed well-formed-options path, a registered callback table is not
    registered again and the table in memory stays the registered one; a
    [JNI_OnLoad] call that finds the handle registers and writes nothing.
    On the well-formed-options path [Agent_OnLoad] registers the five-slot
    table, then writes the [VMInit] slot and registers the six-slot table. *)
Theorem callback_table_registrations_by_path jvm w options :
  (exists new,
     log (final (JNI_OnLoad jvm w)) = log w ++ new /\
     registered_once_then_frozen new
       (_jvmti_callbacks_static (mem (final (JNI_OnLoad jvm w)))) /\
     match _jvmti (mem w) with
     | Some _ => new = [] /\ mem (final (JNI_OnLoad jvm w)) = mem w
     | None => True
     end) /\
  (exists new,
     log (final (Agent_OnLoad jvm options w)) = log w ++ new /\
     if has_comma options && has_returned (Agent_OnLoad jvm options w)
     then
       registrations new = [five_slot_table; six_slot_table] /\
       _jvmti_callbacks_static (mem (final (Agent_OnLoad jvm options w)))
         = six_slot_table
     else
       registered_once_then_frozen new
         (_jvmti_callbacks_static
            (mem (final (Agent_OnLoad jvm options w))))).
Proof.
  split.
  - all_runs (JNI_OnLoad jvm w).
    all: give_new.
    all: split; [frozen_or_twice|]; auto.
  - destruct options as [o|];
      [rewrite has_comma_tests|cbn [has_comma andb]].
    + all_runs (Agent_OnLoad jvm (Some o) w).
      all: give_new; rewrite ?andb_false_r; cbn [andb]; frozen_or_twice.
    + all_runs (Agent_OnLoad jvm None w).
      all: give_new; frozen_or_twice.
Qed.

(** In a build with [assert]s every registration and every enable that
    [initializeJVMTI] makes is checked: one that fails is the last event of
    the run, and the run does not return. *)
Lemma initializeJVMTI_asserts_each_result jvm w :
  NDEBUG = false ->
  exists new,
    log (final (initializeJVMTI jvm w)) = log w ++ new /\
    forall pre e post,
      new = pre ++ e :: post ->
      (exists t r, e = Called_SetEventCallbacks t r /\ r <> JVMTI_ERROR_NONE)
      \/ (exists m ev r,
            e = Called_SetEventNotificationMode m ev r /\
            r <> JVMTI_ERROR_NONE) ->
      post = [] /\ has_returned (initializeJVMTI jvm w) = false.
Proof.
  intros Hdebug.
  all_runs (initializeJVMTI jvm w).
  all: repeat match goal with
         | H : _ || _ = false |- _ =>
             apply assert_fails in H; destruct H as [_ H]
         | H : passes _ |- _ => specialize (H Hdebug)
         end.
  all: give_new; intros pre e post E; each_cut E.
  all: intros [(t & r0 & He & Hr)|(m & ev & r0 & He & Hr)].
  all: try discriminate He.
  all: injection He as <-; subst; try (now split); congruence.
Qed.

(** ** What the entry points return, keep and print *)

Lemma usage_error_tests o :
  usage_error (Some o) =
    (0 <? strlen o)%nat
    && match strpbrk o "," with Some _ => false | None => true end.
Proof.
  unfold usage_error. rewrite has_comma_tests. unfold chars.
  destruct o as [|c o]; [reflexivity|].
  cbn [percent_s strlen]. destruct (is_NUL c); [reflexivity|].
  cbn [list_ascii_of_string Nat.ltb Nat.leb andb].
  now destruct (strpbrk (String c o) ",").
Qed.

(** [returned_runs Hrun] runs the program of [Hrun : program w = Returned r
    w1] and leaves one goal for each way it can have returned. *)
Ltac returned_runs Hrun :=
  let Ho := fresh "Ho" in
  match type of Hrun with
  | ?o = Returned _ _ =>
      remember o as run_of eqn:Ho; run_in Ho; repeat step_run Ho;
      rewrite Ho in Hrun; try discriminate Hrun;
      injection Hrun as <- <-; clear Ho; tidy_hyps;
      cbn [mem log]; rewrite <- ?app_assoc; cbn [app]
  end.

Ltac not_in_log H :=
  cbn [In] in H;
  repeat (destruct H as [H|H]; [try discriminate H|]);
  try contradiction.

(** X1: the value [Agent_OnLoad] returns depends on the option string
    alone: -1 for a string that is not empty and has no comma, 0 in every
    other case, also when capabilities were refused; and the success line
    is printed exactly when the value is 0. *)
Theorem Agent_OnLoad_result jvm w options r w1 :
  Agent_OnLoad jvm options w = Returned r w1 ->
  r = (if usage_error options then -1 else 0) /\
  exists new,
    log w1 = log w ++ new /\
    (In (Printed stdout success_line) new <-> r = 0).
Proof.
  intros Hrun.
  destruct options as [o|]; [rewrite usage_error_tests|cbn [usage_error]].
  - returned_runs Hrun.
    all: cbn [andb]; (split; [reflexivity|]); give_new.
    all: split; [|cbn [In]; auto 20; discriminate].
    all: intros H; try reflexivity; exfalso; simpl in H; not_in_log H.
  - returned_runs Hrun.
    all: (split; [reflexivity|]); give_new.
    all: split; [reflexivity|cbn [In]; auto 20].
Qed.

(** X2: [Agent_OnLoad] has no guard.  Whatever the memory held when it was
    called, a call that returns has asked for the environment again and has
    negotiated exactly once; the first table it registered is the zeroed
    table with the five slots; and the memory it leaves is fixed by the
    handle [GetEnv] stored and by the option string: the five-slot table,
    with the [VMInit] slot set when the string has a comma. *)
Theorem Agent_OnLoad_rebuilds_the_agent jvm w options r w1 :
  Agent_OnLoad jvm options w = Returned r w1 ->
  exists env new,
    GetEnv jvm (log (announced w)) jvmti_version = Some env /\
    mem w1 =
      mkGlobals (Some env) addr_jvmti_callbacks_static
        (if has_comma options then six_slot_table else five_slot_table) /\
    log w1 = log w ++ new /\
    negotiations new = 1%nat /\
    hd_error (registrations new) = Some five_slot_table.
Proof.
  intros Hrun.
  destruct options as [o|]; [rewrite has_comma_tests|cbn [has_comma]].
  all: returned_runs Hrun.
  all: unfold answered in *; cbn [andb].
  all: eexists; eexists; (split; [eassumption|]).
  all: split; [reflexivity|]; split; [reflexivity|].
  all: split; reflexivity.
Qed.

(** X3: the guard of [JNI_OnLoad] also holds after [Agent_OnLoad]: once
    [Agent_OnLoad] has returned, with 0 or with -1, a [JNI_OnLoad] call
    returns [JNI_VERSION_1_2] with no call, no output and no change of the
    memory. *)
Theorem JNI_OnLoad_after_Agent_OnLoad_is_a_no_op jvm jvm' w options r w1 :
  Agent_OnLoad jvm options w = Returned r w1 ->
  JNI_OnLoad jvm' w1 = Returned JNI_VERSION_1_2 w1.
Proof.
  intros Hrun. apply JNI_OnLoad_skips.
  returned_runs Hrun.
  all: discriminate.
Qed.

(** X4: the entry points only ever enable notifications.  In every run,
    however it ends, each [SetEventNotificationMode] call has the mode
    [JVMTI_ENABLE] and an event other than [JVMTI_EVENT_VM_OBJECT_ALLOC],
    whose callback is registered all the same; [JNI_OnLoad] never enables
    [JVMTI_EVENT_VM_INIT], and [Agent_OnLoad] only for an option string
    with a comma. *)
Theorem notifications_are_only_enabled jvm w options :
  (exists new,
     log (final (JNI_OnLoad jvm w)) = log w ++ new /\
     forall m ev res,
       In (Called_SetEventNotificationMode m ev res) new ->
       m = JVMTI_ENABLE /\
       ev <> JVMTI_EVENT_VM_OBJECT_ALLOC /\ ev <> JVMTI_EVENT_VM_INIT) /\
  (exists new,
     log (final (Agent_OnLoad jvm options w)) = log w ++ new /\
     forall m ev res,
       In (Called_SetEventNotificationMode m ev res) new ->
       m = JVMTI_ENABLE /\
       ev <> JVMTI_EVENT_VM_OBJECT_ALLOC /\
       (ev = JVMTI_EVENT_VM_INIT -> has_comma options = true)).
Proof.
  split.
  - all_runs (JNI_OnLoad jvm w).
    all: give_new; intros m ev answer H; cbn [In] in H.
    all: repeat (destruct H as [H|H];
                 [try discriminate H;
                  injection H as <- <- <-; repeat split; discriminate|]).
    all: contradiction.
  - destruct options as [o|]; [rewrite has_comma_tests|cbn [has_comma]].
    + all_runs (Agent_OnLoad jvm (Some o) w).
      all: give_new; intros m ev answer H; cbn [In] in H.
      all: repeat (destruct H as [H|H];
                   [try discriminate H;
                    injection H as <- <- <-; repeat split;
                    solve [discriminate | reflexivity]|]).
      all: contradiction.
    + all_runs (Agent_OnLoad jvm None w).
      all: give_new; intros m ev answer H; cbn [In] in H.
      all: repeat (destruct H as [H|H];
                   [try discriminate H;
                    injection H as <- <- <-; repeat split; discriminate|]).
      all: contradiction.
Qed.

(** ** Failures of the host *)

(** X5: the pointer [GetEnv] stores is not checked.  When the host stores
    a null pointer, [Agent_OnLoad] has by then printed its first line and
    overwritten [_jvmti], whatever handle it held, and its next step, the
    [GetCapabilities] call, goes through the null pointer: no other call
    is made and nothing more is printed. *)
Theorem null_environment_is_dereferenced jvm w options :
  GetEnv jvm (log (announced w)) jvmti_version = None ->
  Agent_OnLoad jvm options w =
    NullDereference
      (mkWorld (set_jvmti None (mem w))
         (log (announced w) ++ [Called_GetEnv jvmti_version None])).
Proof.
  intros HEnv. cbn [announced log] in HEnv.
  remember (Agent_OnLoad jvm options w) as o eqn:Ho.
  run_in Ho. rewrite HEnv in Ho. reduce_in Ho. exact Ho.
Qed.

(** X6: in a build without [assert]s no answer of the host stops the
    initialization once [GetEnv] has stored a handle: [initializeJVMTI]
    makes the negotiation, the registration and the four enables, and
    returns, whatever each call answered. *)
Theorem without_asserts_initialization_returns jvm w env :
  NDEBUG = true ->
  GetEnv jvm (log w) jvmti_version = Some env ->
  exists e0 c0 ea r0 r1 r2 r3 r4,
    initializeJVMTI jvm w =
      Returned tt
        (mkWorld
           (mkGlobals (Some env) addr_jvmti_callbacks_static five_slot_table)
           (log w ++ negotiation env e0 c0 ea
              ++ Called_SetEventCallbacks five_slot_table r0
                 :: four_enables r1 r2 r3 r4)).
Proof.
  intros Hbuild HEnv.
  all_runs (initializeJVMTI jvm w).
  all: unfold answered in *.
  all: try (rewrite HEnv in *; discriminate).
  all: try match goal with
         | H : _ || _ = false |- _ =>
             apply assert_fails in H; destruct H as [H _]; congruence
         end.
  all: assert (j = env) by congruence; subst j.
  all: do 8 eexists; unfold negotiation.
  all: match goal with E : (_ =? _) = _ |- _ => rewrite E end.
  all: rewrite <- ?app_assoc; reflexivity.
Qed.

(** X7: a run of [initializeJVMTI] that does not return has stopped right
    after the call that failed: the last event of its log is the [GetEnv]
    that stored a null pointer or, in a build with [assert]s, a
    [GetCapabilities], [SetEventCallbacks] or [SetEventNotificationMode]
    call with a result other than [JVMTI_ERROR_NONE]; it is never the
    [AddCapabilities] call or a printed line. *)
Theorem a_stopped_initialization_ends_at_the_failed_call jvm w :
  has_returned (initializeJVMTI jvm w) = false ->
  exists before e,
    log (final (initializeJVMTI jvm w)) = log w ++ before ++ [e] /\
    stops_the_run e.
Proof.
  all_runs (initializeJVMTI jvm w).
  all: intros Hstopped; try discriminate Hstopped.
  all: repeat match goal with
         | H : _ || _ = false |- _ => apply assert_fails in H
         end.
  all: match goal with
       | |- exists before e, _ ++ ?new = _ /\ _ =>
           exists (removelast new), (last new (Printed stdout EmptyString))
       end.
  all: split; [reflexivity|cbn; auto].
Qed.

(** X8: what a returned [Agent_OnLoad] has written to the standard error
    stream is the failure message of the negotiation, when
    [AddCapabilities] answered with a failure, followed by the three lines
    of the usage message (the agent takes two parameters; the path to the
    agent libraries and the port number, separated by a comma; an example),
    when the option string is not empty and has no comma; and nothing
    else. *)
Theorem stderr_of_Agent_OnLoad jvm w options r w1 :
  Agent_OnLoad jvm options w = Returned r w1 ->
  exists new request err,
    log w1 = log w ++ new /\
    In (Called_AddCapabilities request err) new /\
    stderr_lines new =
      (if err =? JVMTI_ERROR_NONE then []
       else [negotiation_failure_message err])
      ++ (if usage_error options then
            [("Profiler Agent: -agentpath:<PATH>/profilerinterface should be called with two parameters:" ++ LF)%string;
             ("Profiler Agent: path to Profiler agent libraries and port number, separated by comma, for example:" ++ LF)%string;
             ("Profiler Agent: java -agentpath:/mypath/profilerinterface=/home/me/nb-profiler-server/profiler-ea-libs,5500" ++ LF)%string]
          else []).
Proof.
  intros Hrun.
  destruct options as [o|]; [rewrite usage_error_tests|cbn [usage_error]].
  all: returned_runs Hrun.
  all: match goal with
       | E : (?e =? JVMTI_ERROR_NONE) = _
         |- exists new request err, _ ++ ?l = _ /\ _ =>
           exists l; eexists; exists e;
           split; [reflexivity|];
           split; [cbn [In]; auto 10|];
           cbn [stderr_lines andb app]; rewrite E; reflexivity
       end.
Qed.

(** ** The timer after the entry points *)




End Agent.

(** ** Concrete runs

    A build with [assert]s and with [JNI_VERSION_1_6], started from the
    freshly loaded library. *)


Lemma no_comma_in_5500 : ~ In comma (chars "5500").
Proof. cbn. intuition discriminate. Defined.

(** The options [5500] are a usage error. *)
Lemma usage_error_on_5500 :
  let initialized :=
    final (initializeJVMTI false true cooperative_host
             (announced world_at_load)) in
  Agent_OnLoad false true cooperative_host (Some "5500") world_at_load =
    Returned (-1)
      (mkWorld
         (mkGlobals (Some 1%N) addr_jvmti_callbacks_static five_slot_table)
         (log initialized ++
          [Printed stdout ("Profiler Agent: Options: >5500<" ++ LF);
           Printed stderr
             ("Profiler Agent: -agentpath:<PATH>/profilerinterface should be called with two parameters:" ++ LF);
           Printed stderr
             ("Profiler Agent: path to Profiler agent libraries and port number, separated by comma, for example:" ++ LF);
           Printed stderr
             ("Profiler Agent: java -agentpath:/mypath/profilerinterface=/home/me/nb-profiler-server/profiler-ea-libs,5500" ++ LF)])).
Proof.
  intros initialized.
  exact (proj1 (usage_error_returns_failure
                  false true cooperative_host world_at_load initialized
                  "5500" ltac:(discriminate) no_comma_in_5500 eq_refl)).
Defined.

Lemma comma_in_extra : In comma (chars "/home/me/server,5500,extra").
Proof. cbn. repeat (first [left; reflexivity | right]). Defined.

(** A third field after a second comma is passed on to the parser, and
    the hook is armed. *)
Lemma extra_fields_are_accepted :
  let initialized :=
    final (initializeJVMTI false true cooperative_host
             (announced world_at_load)) in
  Agent_OnLoad false true cooperative_host
    (Some "/home/me/server,5500,extra") world_at_load =
    Returned 0
      (mkWorld
         (mkGlobals (Some 1%N) addr_jvmti_callbacks_static
            (mkCallbacks (Some vm_init_hook)
               (Some class_file_load_hook) (Some native_method_bind_hook)
               (Some monitor_contended_enter_hook)
               (Some monitor_contended_entered_hook)
               (Some vm_object_alloc)))
         (log initialized ++
          [Printed stdout
             ("Profiler Agent: Options: >/home/me/server,5500,extra<" ++ LF);
           Called_parse_options_and_extract_params
             "/home/me/server,5500,extra";
           Called_SetEventCallbacks table_with_VMInit 0;
           Called_SetEventNotificationMode
             JVMTI_ENABLE JVMTI_EVENT_VM_INIT 0;
           Printed stdout
             ("Profiler Agent: Initialized successfully" ++ LF)])).
Proof.
  intros initialized.
  exact (proj1 (well_formed_options_arm_the_VMInit_hook
                  false true cooperative_host world_at_load initialized
                  "/home/me/server,5500,extra" comma_in_extra eq_refl)).
Defined.

(** A null option string and an empty one are calibration runs. *)
Lemma calibration_without_options :
  let initialized :=
    final (initializeJVMTI false true cooperative_host
             (announced world_at_load)) in
  Agent_OnLoad false true cooperative_host None world_at_load =
    Returned 0
      (mkWorld (mem initialized)
         (log initialized ++
          [Printed stdout (options_line None);
           Printed stdout ("Profiler Agent: Initialized successfully" ++ LF)]))
  /\
  Agent_OnLoad false true cooperative_host (Some EmptyString) world_at_load =
    Returned 0
      (mkWorld (mem initialized)
         (log initialized ++
          [Printed stdout (options_line (Some EmptyString));
           Printed stdout ("Profiler Agent: Initialized successfully" ++ LF)])).
Proof.
  intros initialized. split.
  - exact (proj1 (calibration_run
                    false true cooperative_host world_at_load initialized
                    None (or_introl eq_refl) eq_refl)).
  - exact (proj1 (calibration_run
                    false true cooperative_host world_at_load initialized
                    (Some EmptyString)
                    (or_intror (ex_intro _ EmptyString (conj eq_refl eq_refl)))
                    eq_refl)).
Defined.

(** The first [JNI_OnLoad] negotiates once and the second does nothing. *)
Lemma second_JNI_OnLoad_is_a_no_op :
  let loaded :=
    final (JNI_OnLoad false true cooperative_host world_at_load) in
  (exists new,
     log loaded = log world_at_load ++ new /\ negotiations new = 1%nat) /\
  JNI_OnLoad false true cooperative_host loaded
  = Returned JNI_VERSION_1_2 loaded.
Proof.
  intros loaded.
  destruct (JNI_OnLoad_twice_negotiates_once
              false true cooperative_host cooperative_host
              world_at_load loaded JNI_VERSION_1_2 eq_refl eq_refl)
    as (Hnew & _ & Hsecond & _).
  split; [exact Hnew|exact Hsecond].
Defined.


(** A log in which registrations are final holds at most one. *)
Lemma frozen_registrations new t :
  registered_once_then_frozen new t ->
  registrations new = [] \/ registrations new = [t].
Proof.
  induction new as [|e new IH]; intros H; [now left|].
  assert (H' : registered_once_then_frozen new t).
  { intros pre t0 r post E. apply (H (e :: pre) t0 r post).
    now rewrite E. }
  destruct e; cbn [registrations]; auto.
  destruct (H [] callbacks err new eq_refl) as [-> ->]. now right.
Qed.

(** C6 as stated fails: on the cooperative host, [Agent_OnLoad] with the
    options [/home/me/server,5500] registers the five-slot table, then
    writes the [VMInit] slot and registers the table again. *)
Lemma well_formed_options_register_the_table_twice :
  ~ registered_once_then_frozen
      (log (final (Agent_OnLoad false true cooperative_host
                     (Some "/home/me/server,5500") world_at_load)))
      (_jvmti_callbacks_static
         (mem (final (Agent_OnLoad false true cooperative_host
                        (Some "/home/me/server,5500") world_at_load)))).
Proof.
  intros H. apply frozen_registrations in H.
  vm_compute in H. destruct H as [H|H]; discriminate H.
Qed.

(** C8: in a build with [assert]s, on a host that answers
    [JVMTI_ERROR_INTERNAL] to the registration of the table with the
    [VMInit] slot set and to the enable of [JVMTI_EVENT_VM_INIT],
    [Agent_OnLoad] with the options [/home/me/server,5500] logs both
    failures, then prints the success line and returns 0: neither result
    is checked. *)
Theorem failed_VMInit_registration_goes_unnoticed :
  Agent_OnLoad false true host_refusing_VMInit
    (Some "/home/me/server,5500") world_at_load =
    Returned 0
      (mkWorld
         (mkGlobals (Some 1%N) addr_jvmti_callbacks_static six_slot_table)
         (log (final (initializeJVMTI false true host_refusing_VMInit
                        (announced world_at_load))) ++
          [Printed stdout (options_line (Some "/home/me/server,5500"));
           Called_parse_options_and_extract_params "/home/me/server,5500";
           Called_SetEventCallbacks six_slot_table 113;
           enabled JVMTI_EVENT_VM_INIT 113;
           Printed stdout
             ("Profiler Agent: Initialized successfully" ++ LF)])).
Proof. vm_compute. reflexivity. Qed.

(** ** More concrete runs *)

(** The options [5500] give -1 and no success line. *)
Lemma result_of_Agent_OnLoad_on_5500 :
  let w1 :=
    final (Agent_OnLoad false true cooperative_host (Some "5500")
             world_at_load) in
  -1 = (if usage_error (Some "5500") then -1 else 0) /\
  exists new,
    log w1 = log world_at_load ++ new /\
    (In (Printed stdout success_line) new <-> -1 = 0).
Proof.
  intros w1.
  exact (Agent_OnLoad_result false true cooperative_host world_at_load
           (Some "5500") (-1) w1 eq_refl).
Defined.

(** [Agent_OnLoad] after [JNI_OnLoad] negotiates again. *)
Lemma Agent_OnLoad_after_JNI_OnLoad_negotiates_again :
  let loaded :=
    final (JNI_OnLoad false true cooperative_host world_at_load) in
  let w1 := final (Agent_OnLoad false true cooperative_host None loaded) in
  _jvmti (mem loaded) = Some 1%N /\
  exists env new,
    GetEnv cooperative_host (log (announced loaded)) (jvmti_version true)
    = Some env /\
    mem w1 =
      mkGlobals (Some env) addr_jvmti_callbacks_static
        (if has_comma None then six_slot_table else five_slot_table) /\
    log w1 = log loaded ++ new /\
    negotiations new = 1%nat /\
    hd_error (registrations new) = Some five_slot_table.
Proof.
  intros loaded w1. split; [reflexivity|].
  exact (Agent_OnLoad_rebuilds_the_agent false true cooperative_host loaded
           None 0 w1 eq_refl).
Defined.

(** [JNI_OnLoad] after the usage error on [5500] does nothing. *)
Lemma JNI_OnLoad_after_the_usage_error :
  let w1 :=
    final (Agent_OnLoad false true cooperative_host (Some "5500")
             world_at_load) in
  JNI_OnLoad false true cooperative_host w1 = Returned JNI_VERSION_1_2 w1.
Proof.
  intros w1.
  exact (JNI_OnLoad_after_Agent_OnLoad_is_a_no_op false true
           cooperative_host cooperative_host world_at_load
           (Some "5500") (-1) w1 eq_refl).
Defined.

(** On the host without an environment [Agent_OnLoad] goes through the
    null pointer after its first line and the [GetEnv] call. *)
Lemma Agent_OnLoad_without_an_environment :
  Agent_OnLoad false true host_without_env None world_at_load =
    NullDereference
      (mkWorld (set_jvmti None (mem world_at_load))
         (log (announced world_at_load)
            ++ [Called_GetEnv (jvmti_version true) None])).
Proof.
  exact (null_environment_is_dereferenced false true host_without_env
           world_at_load None eq_refl).
Defined.

(** Without [assert]s the initialization returns on the host that fails
    every call. *)
Lemma initialization_returns_on_the_failing_host :
  exists e0 c0 ea r0 r1 r2 r3 r4,
    initializeJVMTI true true host_failing_every_call world_at_load =
      Returned tt
        (mkWorld
           (mkGlobals (Some 1%N) addr_jvmti_callbacks_static five_slot_table)
           (log world_at_load ++ negotiation true 1%N e0 c0 ea
              ++ Called_SetEventCallbacks five_slot_table r0
                 :: four_enables r1 r2 r3 r4)).
Proof.
  exact (without_asserts_initialization_returns true true
           host_failing_every_call world_at_load 1%N eq_refl eq_refl).
Defined.

(** With [assert]s it stops at the failed [GetCapabilities]. *)
Lemma initialization_stops_on_the_failing_host :
  exists before e,
    log (final (initializeJVMTI false true host_failing_every_call
                  world_at_load))
    = log world_at_load ++ before ++ [e] /\
    stops_the_run false e.
Proof.
  exact (a_stopped_initialization_ends_at_the_failed_call false true
           host_failing_every_call world_at_load eq_refl).
Defined.

(** Refused capabilities and the options [5500] give the failure message
    and then the usage message. *)
Lemma stderr_of_a_refusal_and_a_usage_error :
  let w1 :=
    final (Agent_OnLoad false true host_without_capabilities (Some "5500")
             world_at_load) in
  exists new request err,
    log w1 = log world_at_load ++ new /\
    In (Called_AddCapabilities request err) new /\
    stderr_lines new =
      (if err =? JVMTI_ERROR_NONE then []
       else [negotiation_failure_message err])
      ++ usage_text.
Proof.
  intros w1.
  exact (stderr_of_Agent_OnLoad false true host_without_capabilities
           world_at_load (Some "5500") (-1) w1 eq_refl).
Defined.


(** On the cooperative host the request follows the two calls that
    prepare it, and no other request is made. *)
Lemma capabilities_requested_on_the_cooperative_host :
  exists rest,
    log (final (initializeJVMTI false true cooperative_host world_at_load)) =
      [Called_GetEnv JVMTI_VERSION_1_1 (Some 1%N);
       Called_GetCapabilities 0 no_capabilities;
       Called_AddCapabilities
         (mkCapabilities true true true true true true true true 0) 0]
      ++ rest /\
    negotiations rest = 0%nat.
Proof.
  exact (capabilities_requested_once false true cooperative_host
           world_at_load 1%N 0 no_capabilities
           eq_refl eq_refl (fun _ => eq_refl)).
Defined.
